(** * sec-code-bench: the evaluation engine, embedded and verified

    Shallow embedding of [sec_code_bench/eval.py] (response extractor, run
    pipeline, work-unit fan-out) and of [sec_code_bench/llm/openai.py]
    (request assembly and error normalisation of the OpenAI adapter).

    Python [str] is modelled by [string]; its characters are the code points
    below 256.  A Python [dict] keyed by strings is a [gmap string _] where
    only lookups matter, and an insertion-ordered association list inside the
    recursive value type produced by the XML walk. *)

From Stdlib Require Import Ascii String List Lia Arith DecimalString.
From stdpp Require Import base option list strings gmap.

Set Warnings "-register-all".

(* ===================================================================== *)
(** * Part I: definitions                                                 *)
(* ===================================================================== *)

(** ** Python string primitives used by the sources *)
Module PyStr.

(** [str.isspace] on one character, which is also what [\s] matches in a
    [str] pattern and what [str.strip()] removes: TAB..CR, FS..US, SPACE,
    NEL and NBSP. *)
Definition isspace (c : ascii) : bool :=
  let n := nat_of_ascii c in
  ((9 <=? n)%nat && (n <=? 13)%nat) || ((28 <=? n)%nat && (n <=? 32)%nat)
  || (n =? 133)%nat || (n =? 160)%nat.

Definition is_empty (s : string) : bool :=
  match s with EmptyString => true | String _ _ => false end.

Fixpoint lstrip (s : string) : string :=
  match s with
  | EmptyString => EmptyString
  | String c s' => if isspace c then lstrip s' else s
  end.

Fixpoint rstrip (s : string) : string :=
  match s with
  | EmptyString => EmptyString
  | String c s' =>
      let r := rstrip s' in
      if is_empty r && isspace c then EmptyString else String c r
  end.

(** [s.strip()] *)
Definition strip (s : string) : string := rstrip (lstrip s).

(** [s[:n]] *)
Fixpoint slice_to (n : nat) (s : string) : string :=
  match n, s with
  | O, _ => EmptyString
  | S _, EmptyString => EmptyString
  | S n', String c s' => String c (slice_to n' s')
  end.

(** [c in s] for a one-character needle *)
Fixpoint contains (c : ascii) (s : string) : bool :=
  match s with
  | EmptyString => false
  | String a s' => Ascii.eqb a c || contains c s'
  end.

(** [s.rsplit(c, 1)[-1]]: what follows the last [c], the whole of [s] when
    there is none. *)
Fixpoint rsplit_last (c : ascii) (s : string) : string :=
  match s with
  | EmptyString => EmptyString
  | String a s' =>
      if contains c s' then rsplit_last c s'
      else if Ascii.eqb a c then s' else s
  end.

(** [s.startswith(p)], returning what follows the prefix. *)
Fixpoint strip_prefix (p s : string) : option string :=
  match p, s with
  | EmptyString, _ => Some s
  | String _ _, EmptyString => None
  | String a p', String b s' =>
      if Ascii.eqb a b then strip_prefix p' s' else None
  end.

(** Every suffix of [s], longest first: the start positions 0, 1, ... *)
Fixpoint tails (s : string) : list string :=
  s :: match s with
       | EmptyString => []
       | String _ s' => tails s'
       end.

(** [str(n)] for a non-negative [int] *)
Definition str_of_nat (n : nat) : string :=
  NilEmpty.string_of_uint (Nat.to_uint n).

End PyStr.

(** ** A backtracking matcher for the two patterns of the extractor

    A matcher maps the text at the current position to the list of its
    possible matches [(matched, rest)] in the order in which a backtracking
    engine tries them; sequencing is the list monad.  [re.search] is the head
    of the matches over all start positions, left to right. *)
Module Re.
Import PyStr.

Definition matcher := string → list (string * string).

(** a literal *)
Definition lit (p : string) : matcher := λ s,
  match strip_prefix p s with
  | Some rest => [(p, rest)]
  | None => []
  end.

(** [.*?] under [re.DOTALL]: shortest first *)
Fixpoint any_lazy (s : string) : list (string * string) :=
  (EmptyString, s) ::
  match s with
  | EmptyString => []
  | String c s' => (λ mr, (String c mr.1, mr.2)) <$> any_lazy s'
  end.

(** [\s*]: longest first *)
Fixpoint spaces_greedy (s : string) : list (string * string) :=
  match s with
  | String c s' =>
      if isspace c
      then ((λ mr, (String c mr.1, mr.2)) <$> spaces_greedy s') ++ [(EmptyString, s)]
      else [(EmptyString, s)]
  | EmptyString => [(EmptyString, EmptyString)]
  end.

(** [(?:r)?]: with [r] first, then without *)
Definition opt_greedy (r : matcher) : matcher := λ s,
  r s ++ [(EmptyString, s)].

(** [```(?:xml)?\s*(<result>.*?</result>)\s*```] at one start position:
    group 1 of every way to match, in backtracking order. *)
Definition fence_matches (s : string) : list string :=
  m0 ← lit "```" s;
  m1 ← opt_greedy (lit "xml") m0.2;
  m2 ← spaces_greedy m1.2;
  o ← lit "<result>" m2.2;
  b ← any_lazy o.2;
  c ← lit "</result>" b.2;
  m3 ← spaces_greedy c.2;
  m4 ← lit "```" m3.2;
  [o.1 +:+ b.1 +:+ c.1].

(** [re.search(fence, response, re.DOTALL)], projected on [group(1)] *)
Definition search_fence (response : string) : option string :=
  head (tails response ≫= fence_matches).

(** [<result>.*?</result>] at one start position: the whole match and the
    text after it. *)
Definition envelope_matches (s : string) : list (string * string) :=
  o ← lit "<result>" s;
  b ← any_lazy o.2;
  c ← lit "</result>" b.2;
  [(o.1 +:+ b.1 +:+ c.1, c.2)].

(** [re.findall]: the matches found scanning left to right; after a match
    the scan resumes where the match ended, so its remaining
    [length m - 1] characters are skipped as start positions. *)
Fixpoint findall_from (skip : nat) (s : string) : list string :=
  match s with
  | EmptyString => []
  | String _ s' =>
      match skip with
      | S n => findall_from n s'
      | O =>
          match head (envelope_matches s) with
          | Some mr => mr.1 :: findall_from (String.length mr.1 - 1) s'
          | None => findall_from 0 s'
          end
      end
  end.

Definition findall_envelope (response : string) : list string :=
  findall_from 0 response.

(** [<tag>(.*?)</tag>] at one start position, with [tag] read as literal
    text: group 1 and the text after the match. *)
Definition tag_matches (tag s : string) : list (string * string) :=
  o ← lit ("<" +:+ tag +:+ ">") s;
  b ← any_lazy o.2;
  c ← lit ("</" +:+ tag +:+ ">") b.2;
  [(b.1, c.2)].

(** [re.sub] of that pattern by [<tag><![CDATA[\1]]></tag>]: text outside
    the matches is copied, each match is replaced, and the scan resumes where
    the match ended. *)
Fixpoint sub_cdata_from (tag : string) (skip : nat) (s : string) : string :=
  match s with
  | EmptyString => EmptyString
  | String ch s' =>
      match skip with
      | S n => sub_cdata_from tag n s'
      | O =>
          match head (tag_matches tag s) with
          | Some br =>
              ("<" +:+ tag +:+ ">" +:+ "<![CDATA[" +:+ br.1 +:+ "]]>"
               +:+ "</" +:+ tag +:+ ">")
              +:+ sub_cdata_from tag
                    (String.length ("<" +:+ tag +:+ ">" +:+ br.1 +:+ "</" +:+ tag +:+ ">") - 1)
                    s'
          | None => String ch (sub_cdata_from tag 0 s')
          end
      end
  end.

End Re.

(** ** The response extractor ([eval.py], [format_response] and helpers) *)
Module Extractor.
Import PyStr Re.

(** [xml.etree.ElementTree.Element], as far as the walk reads it: the tag,
    the text before the first child, and the children in document order. *)
Inductive Element : Type :=
| Elem (tag : string) (text : option string) (children : list Element).

Definition elem_tag (e : Element) : string :=
  match e with Elem tag _ _ => tag end.

(** The dynamically typed values the walk builds and inspects. A [dict] is
    its items in insertion order; keys are unique by construction. *)
Inductive pyval : Type :=
| PyNone
| PyStr (s : string)
| PyList (l : list pyval)
| PyDict (d : list (string * pyval)).

(** The exceptions that can occur inside [format_response]; [str(e)] is the
    carried message. *)
Inductive exn : Type :=
| ParseError (msg : string)               (* ET.ParseError *)
| Exception (msg : string)
| ValueError (msg : string)
| AttributeError (msg : string)
| IndexError (msg : string)
| OtherException (cls msg : string).

Definition str_exn (e : exn) : string :=
  match e with
  | ParseError m | Exception m | ValueError m | AttributeError m
  | IndexError m | OtherException _ m => m
  end.

(** One call of [LOG.error]: the f-string, as its literal text and the
    values interpolated into it (their formatting is not modelled). *)
Inductive fragment : Type :=
| Lit (s : string)
| Val (v : pyval)
| TypeOf (v : pyval).

Definition message := list fragment.

(** Truth value of an object: [None], [""], [[]] and [{}] are false. *)
Definition truthy (v : pyval) : bool :=
  match v with
  | PyNone => false
  | PyStr s => negb (is_empty s)
  | PyList l => match l with [] => false | _ :: _ => true end
  | PyDict d => match d with [] => false | _ :: _ => true end
  end.

(** [d.get(k)] *)
Fixpoint dict_get (k : string) (d : list (string * pyval)) : option pyval :=
  match d with
  | [] => None
  | (k', v) :: d' => if String.eqb k' k then Some v else dict_get k d'
  end.

(** [if tag not in result: result[tag] = []] then
    [result[tag].append(child_data)] *)
Fixpoint group_append (tag : string) (child_data : pyval)
    (result : list (string * list pyval)) : list (string * list pyval) :=
  match result with
  | [] => [(tag, [child_data])]
  | (k, l) :: result' =>
      if String.eqb k tag then (k, l ++ [child_data]) :: result'
      else (k, l) :: group_append tag child_data result'
  end.

(** [element.text.strip() if element.text and element.text.strip() else None] *)
Definition leaf_text (text : option string) : pyval :=
  match text with
  | None => PyNone
  | Some t =>
      if is_empty t then PyNone
      else if is_empty (strip t) then PyNone
      else PyStr (strip t)
  end.

Fixpoint xml_to_dict_ (element : Element) : pyval :=
  match element with
  | Elem _ text children =>
      match children with
      | [] => leaf_text text
      | _ :: _ =>
          let datas := List.map (λ child, (elem_tag child, xml_to_dict_ child)) children in
          let result := fold_left (λ r cd, group_append cd.1 cd.2 r) datas [] in
          PyDict (List.map (λ kl, (kl.1, PyList kl.2)) result)
      end
  end.

(** [fix_xml(xml_string, tag_list)]: for a non-empty tag list, the body of
    every [<tag>...</tag>] is wrapped in a CDATA section, one listed tag
    after the other ([xml_to_dict] is only ever called with [tags=None]). *)
Definition fix_xml (xml_string : string) (tag_list : option (list string)) : string :=
  match tag_list with
  | None | Some [] => xml_string
  | Some tags => fold_left (λ xml_string tag, sub_cdata_from tag 0 xml_string) tags xml_string
  end.

Definition extract_xml_from_response (response : string) : string :=
  match search_fence response with
  | Some group1 => group1
  | None =>
      match last (findall_envelope response) with
      | Some m => m
      | None => response
      end
  end.

Section WithParser.
(** [ET.fromstring]: the parsed root, or the exception it raises. *)
Variable fromstring : string → exn + Element.

Definition xml_to_dict (xml_string : string) : exn + pyval :=
  let xml_string := fix_xml xml_string None in
  match fromstring xml_string with
  | inr root => inr (PyDict [(elem_tag root, xml_to_dict_ root)])
  | inl (ParseError e) => inl (Exception ("xml parse error: " +:+ e))
  | inl e => inl e
  end.

Definition no_valid_xml : exn :=
  ValueError "no valid xml content found in LLM response".

(** [x[0] if isinstance(x, list) else x] *)
Definition first_or_self (x : pyval) : exn + pyval :=
  match x with
  | PyList (x0 :: _) => inr x0
  | PyList [] => inl (IndexError "list index out of range")
  | _ => inr x
  end.

(** [path.strip()] on an object that need not be a [str] *)
Definition py_strip (path : pyval) : exn + string :=
  match path with
  | PyStr s => inr (strip s)
  | PyNone => inl (AttributeError "'NoneType' object has no attribute 'strip'")
  | PyList _ => inl (AttributeError "'list' object has no attribute 'strip'")
  | PyDict _ => inl (AttributeError "'dict' object has no attribute 'strip'")
  end.

(** One iteration of the loop over [code_list]: what it logs, and whether
    it raises, [continue]s ([None]) or appends a pair. *)
Definition code_item_step (code_item : pyval)
    : list message * (exn + option (string * pyval)) :=
  match code_item with
  | PyDict d =>
      let path_list := default (PyList []) (dict_get "path" d) in
      let content_list := default (PyList []) (dict_get "content" d) in
      if negb (truthy path_list) || negb (truthy content_list)
      then ([[Lit "Missing path or content in code item"]], inr None)
      else
        match first_or_self path_list, first_or_self content_list with
        | inl e, _ => ([], inl e)
        | inr _, inl e => ([], inl e)
        | inr path, inr code_content =>
            if negb (truthy path) || negb (truthy code_content)
            then ([[Lit "Empty path or content"]], inr None)
            else
              match py_strip path with
              | inl e => ([], inl e)
              | inr path =>
                  let file_name :=
                    if contains "/" path then rsplit_last "/" path else path in
                  if is_empty file_name || is_empty (strip file_name)
                  then ([], inl (ValueError
                          ("Invalid file path: unable to extract file name from '"
                           +:+ path +:+ "'")))
                  else ([], inr (Some (file_name, code_content)))
              end
        end
  | _ => ([[Lit "Code item is not a dict: "; Val code_item]], inr None)
  end.

(** [for code_item in code_list: ...] then [return result_list] *)
Fixpoint collect (code_list : list pyval) (result_list : list (string * pyval))
    (log : list message) : (exn + list (string * pyval)) * list message :=
  match code_list with
  | [] => (inr result_list, log)
  | code_item :: code_list' =>
      let (msgs, r) := code_item_step code_item in
      match r with
      | inl e => (inl e, log ++ msgs)
      | inr None => collect code_list' result_list (log ++ msgs)
      | inr (Some entry) => collect code_list' (result_list ++ [entry]) (log ++ msgs)
      end
  end.

(** The body of the [try] of [format_response]. *)
Definition format_response_try (response : string)
    : (exn + list (string * pyval)) * list message :=
  let extracted_xml := extract_xml_from_response response in
  match xml_to_dict extracted_xml with
  | inl e => (inl e, [])
  | inr (PyDict result) =>
      match default (PyDict []) (dict_get "result" result) with
      | PyDict codes =>
          match default (PyList []) (dict_get "code" codes) with
          | PyList [] => (inl no_valid_xml, [[Lit "Code list is empty"]])
          | PyList code_list => collect code_list [] []
          | code_list =>
              (inl no_valid_xml, [[Lit "Code is not a list: "; Val code_list]])
          end
      | codes => (inl no_valid_xml, [[Lit "Result is not a dict: "; Val codes]])
      end
  | inr result =>
      (inl no_valid_xml, [[Lit "xml_to_dict returned non-dict type: "; TypeOf result]])
  end.

(** [response[:500]] as it is written to the log by the handler *)
Definition preview (response : string) : string := slice_to 500 response.

(** [format_response]: the [try] body under [except Exception], whose
    handler logs the error and the preview and returns [[]]. The result
    keeps the shape of a Python call: [inl] would be an exception
    escaping to the caller. *)
Definition format_response (response : string)
    : (exn + list (string * pyval)) * list message :=
  match format_response_try response with
  | (inr result_list, log) => (inr result_list, log)
  | (inl e, log) =>
      (inr [],
       log ++ [ [Lit "Error processing XML code: "; Lit (str_exn e)];
                [Lit "XML content preview: "; Lit (preview response); Lit "..."] ])
  end.

End WithParser.
End Extractor.

(** ** The run pipeline ([eval.py], [run_once]) *)
Module Pipeline.
Import PyStr.
Export Extractor.

(** Modelled from the spec: [EvaluatorResult] ([evaluator/base.py] is not
    among the sources): a success flag, captured stdout/stderr and an error
    message. A field left out of the constructor call is [None]. The pass
    predicate [if_pass()] is a parameter of the pipeline below. *)
Record EvaluatorResult : Type := {
  success : bool;
  error_message : option string;
  stdout : option string;
  stderr : option string
}.

(** [TestScenario], read through its [.value] only *)
Record TestScenario : Type := { value : string }.

(** The attributes of a [Testcase] that [run_once] reads. *)
Record Testcase : Type := {
  case_id : string;
  template : string;
  language : string;                          (* [language.value] *)
  prompt : string;
  params : gmap string string;                (* file name ↦ relative path *)
  scenarios : list TestScenario;
  get_scenario_prompt : TestScenario → exn + string
}.

(** What [llm.aquery] hands back: a [str], or an object of another type. *)
Inductive response : Type :=
| RespStr (text : string)
| RespOther (type_name : string).

(** What [FunctionTester.function_eval_with_retry] does: it raises, or it
    returns an [EvaluatorResult], or an object of another type;
    [has_streams] tells whether that object has the [stdout] and [stderr]
    attributes which the code reads on a copy of the result before it tests
    the type. *)
Inductive fun_outcome : Type :=
| FunSyntaxCheckError (e : exn)
| FunException (e : exn)
| FunReturn (r : EvaluatorResult)
| FunReturnOther (type_name : string) (has_streams : bool).

(** The argument of [set_fun_results]: an [EvaluatorResult], or the message
    string of the workspace path. *)
Inductive fun_record : Type :=
| FunResult (r : EvaluatorResult)
| FunText (s : string).

(** The calls [run_once] makes on its collaborators, in order. *)
Inductive event : Type :=
| GetScenarioPrompt (scenario : TestScenario)
| Aquery (prompt : string)
| FormatResponse (response : string)
| SetErrorResult (cycle : nat) (scenario : TestScenario) (msg : string)
| SetCodePaths (cycle : nat) (scenario : TestScenario) (code_dir : string)
| CopyTree (src dst : string)
| MkdirParent (full_path : string)
| WriteFile (full_path : string) (code : pyval)
| FunctionEval (code_dir : string)
| SetFunResults (cycle : nat) (scenario : TestScenario) (r : fun_record)
| SecurityEval (code_dir : string)
| SetSecResults (cycle : nat) (scenario : TestScenario) (r : EvaluatorResult).

(** The behaviour of everything outside [run_once]. A filesystem call may
    answer differently each time: it sees the calls made so far. [None] is a
    normal return, [Some e] the exception raised. *)
Record World : Type := {
  aquery : string → exn + response;
  format_response : string → exn + option (list (string * pyval));
  copytree : string → string → option exn;
  mkdir_parent : list event → string → option exn;
  write_file_async : list event → string → pyval → option exn;
  function_eval_with_retry : string → fun_outcome;
  security_eval : string → exn + EvaluatorResult;
  if_pass : EvaluatorResult → bool;
  package_dir : string                       (* [Path(__file__).parent.parent] *)
}.

Definition nl : string := String "010"%char EmptyString.

(** [a / b] on paths, as text: an absolute [b] replaces [a], an empty [b]
    leaves [a]. *)
Definition path_join (a b : string) : string :=
  match b with
  | EmptyString => a
  | String "/" _ => b
  | String _ _ => a +:+ "/" +:+ b
  end.

(** [str(type(x))] *)
Definition str_type (type_name : string) : string :=
  "<class '" +:+ type_name +:+ "'>".

Section RunOnce.
Variable W : World.
Variable cycle : nat.
Variable testcase : Testcase.
Variable work_dir : string.
Variable scenario : TestScenario.

Definition code_template_dir : string :=
  path_join (path_join (path_join (package_dir W) "datasets/templates")
               (language testcase)) (template testcase).

Definition code_dir : string :=
  path_join work_dir
    (prompt testcase +:+ "_" +:+ value scenario +:+ "_cycle-" +:+ str_of_nat cycle).

(** [for file_name, code in code_list: ...]: names without a (non-empty)
    entry in [testcase.params] are passed over. Returns the exception
    that ended the loop, if any, and the calls made. *)
Fixpoint overlay (code_list : list (string * pyval)) (tr : list event)
    : option exn * list event :=
  match code_list with
  | [] => (None, tr)
  | (file_name, code) :: code_list' =>
      match params testcase !! file_name with
      | Some file_path =>
          if is_empty file_path then overlay code_list' tr
          else
            let full_path := path_join code_dir file_path in
            let tr1 := tr ++ [MkdirParent full_path] in
            match mkdir_parent W tr full_path with
            | Some e => (Some e, tr1)
            | None =>
                let tr2 := tr1 ++ [WriteFile full_path code] in
                match write_file_async W tr1 full_path code with
                | Some e => (Some e, tr2)
                | None => overlay code_list' tr2
                end
            end
      | None => overlay code_list' tr
      end
  end.

(** From the security stage to the end. *)
Definition security_stage (tr : list event) : list event :=
  let tr := tr ++ [SecurityEval code_dir] in
  match security_eval W code_dir with
  | inr sec_result => tr ++ [SetSecResults cycle scenario sec_result]
  | inl e =>
      tr ++ [SetSecResults cycle scenario
               {| success := false;
                  error_message := Some ("Error running security test: " +:+ str_exn e);
                  stdout := None; stderr := None |}]
  end.

(** From the function stage to the end. *)
Definition function_stage (tr : list event) : list event :=
  let tr := tr ++ [FunctionEval code_dir] in
  match function_eval_with_retry W code_dir with
  | FunSyntaxCheckError e =>
      tr ++ [SetErrorResult cycle scenario
               ("Syntax error in " +:+ code_dir +:+ " " +:+ nl +:+ " " +:+ str_exn e)]
  | FunException e =>
      tr ++ [SetErrorResult cycle scenario
               ("Functional check failed; security check was not performed." +:+ nl
                +:+ " Functional test error is " +:+ str_exn e)]
  | FunReturnOther type_name false =>
      (* [short_result.stdout] raises AttributeError inside the [try] *)
      tr ++ [SetErrorResult cycle scenario
               ("Functional check failed; security check was not performed." +:+ nl
                +:+ " Functional test error is '" +:+ type_name
                +:+ "' object has no attribute 'stdout'")]
  | FunReturnOther _ true =>
      tr ++ [SetErrorResult cycle scenario
               ("Functional check failed; security check was not performed." +:+ nl
                +:+ " Functional test result is not an EvaluatorResult object")]
  | FunReturn fun_result =>
      let tr := tr ++ [SetFunResults cycle scenario (FunResult fun_result)] in
      if negb (success fun_result) || negb (if_pass W fun_result)
      then tr ++ [SetSecResults cycle scenario
                    {| success := false;
                       error_message := Some "Function test failed";
                       stdout := None; stderr := None |}]
      else security_stage tr
  end.

(** From workspace materialisation to the end. *)
Definition workspace_stage (code_list : list (string * pyval)) (tr : list event)
    : list event :=
  let tr := tr ++ [SetCodePaths cycle scenario code_dir] in
  let tr := tr ++ [CopyTree code_template_dir code_dir] in
  let setup_failed (e : exn) (tr : list event) :=
    tr ++ [SetFunResults cycle scenario
             (FunText ("Error setting up test work dir: " +:+ str_exn e))] in
  match copytree W code_template_dir code_dir with
  | Some e => setup_failed e tr
  | None =>
      match overlay code_list tr with
      | (Some e, tr) => setup_failed e tr
      | (None, tr) => function_stage tr
      end
  end.

(** From extraction to the end. *)
Definition extraction_stage (response : string) (tr : list event) : list event :=
  let tr := tr ++ [FormatResponse response] in
  match format_response W response with
  | inl e =>
      tr ++ [SetErrorResult cycle scenario
               ("Failed to format response: " +:+ str_exn e +:+ " " +:+ nl
                +:+ " response: " +:+ nl +:+ response)]
  | inr None =>
      tr ++ [SetErrorResult cycle scenario "Failed to format response after 3 attempts"]
  | inr (Some code_list) => workspace_stage code_list tr
  end.

(** [run_once]: the calls made on the collaborators, first to last. *)
Definition run_once : list event :=
  let tr := [GetScenarioPrompt scenario] in
  let query_failed (e : exn) (tr : list event) :=
    tr ++ [SetErrorResult cycle scenario
             ("LLM query failed for " +:+ template testcase +:+ ": " +:+ str_exn e)] in
  match get_scenario_prompt testcase scenario with
  | inl e => query_failed e tr
  | inr prompt =>
      let tr := tr ++ [Aquery prompt] in
      match aquery W prompt with
      | inl e => query_failed e tr
      | inr (RespOther type_name) =>
          tr ++ [SetErrorResult cycle scenario
                   ("LLM returned non-string response for " +:+ template testcase
                    +:+ ": " +:+ str_type type_name)]
      | inr (RespStr response) => extraction_stage response tr
      end
  end.

End RunOnce.

(** The extractor as [run_once] really calls it: [format_response] of this
    module, over a given XML parser. *)
Definition extractor (fromstring : string → exn + Element) (response : string)
    : exn + option (list (string * pyval)) :=
  match (Extractor.format_response fromstring response).1 with
  | inl e => inl e
  | inr code_list => inr (Some code_list)
  end.

(** The stages after extraction. *)
Definition is_later_stage (ev : event) : bool :=
  match ev with
  | SetCodePaths _ _ _ | CopyTree _ _ | MkdirParent _ | WriteFile _ _
  | FunctionEval _ | SetFunResults _ _ _ | SecurityEval _ | SetSecResults _ _ _ => true
  | _ => false
  end.

Definition is_test_stage (ev : event) : bool :=
  match ev with
  | FunctionEval _ | SecurityEval _ => true
  | _ => false
  end.

Definition is_security_eval (ev : event) : bool :=
  match ev with SecurityEval _ => true | _ => false end.

Definition is_error_result (ev : event) : bool :=
  match ev with SetErrorResult _ _ _ => true | _ => false end.

End Pipeline.

(** ** The fan-out of work units ([eval.py], [main]) *)
Module Orchestrator.
Import Pipeline.






End Orchestrator.

(** ** The OpenAI adapter ([llm/openai.py], [_aquery_implementation]) *)
Module Adapter.

(** JSON-like values travelling in a request. A float literal is kept as
    mantissa and decimal exponent. *)
Inductive value : Type :=
| VNone
| VBool (b : bool)
| VInt (z : Z)
| VFloat (mantissa exponent : Z)
| VStr (s : string)
| VList (l : list value)
| VDict (d : list (string * value)).

(** A keyword argument of the outbound call: a value, or the extension
    object under ["extra_body"]. *)
Inductive kwarg : Type :=
| Arg (v : value)
| ExtraBody (d : gmap string value).

Definition DEFAULT_TEMPERATURE : value := VFloat 6 (-1).
Definition DEFAULT_TOP_P : value := VFloat 9 (-1).

Definition TOP_LEVEL_PARAMS : gset string :=
  {[ "max_tokens"; "max_completion_tokens"; "presence_penalty";
     "frequency_penalty"; "logit_bias"; "logprobs"; "top_logprobs"; "n";
     "seed"; "stop"; "tools"; "tool_choice"; "response_format"; "user";
     "parallel_tool_calls"; "reasoning_effort"; "temperature"; "top_p" ]}.

(** The exception classes the handlers test for; an exception is known by
    the classes it is an instance of (its class and all its bases).
    [ExceptionClass] is the builtin [Exception]: an [asyncio.CancelledError]
    or a [KeyboardInterrupt] derives from [BaseException] only. *)
Inductive exc_class : Type :=
| APITimeoutError
| RateLimitError
| APIError
| ExceptionClass
| OtherClass (name : string).

Global Instance exc_class_eq_dec : EqDecision exc_class.
Proof. solve_decision. Defined.

Record py_exception : Type := {
  classes : list exc_class;
  exc_msg : string
}.

Definition isinstance (e : py_exception) (c : exc_class) : bool :=
  bool_decide (c ∈ classes e).

(** The four errors of [llm_base] the adapter raises, each with its
    message and its cause. *)
Inductive LLMError : Type :=
| LLMTimeoutError (msg : string) (cause : py_exception)
| LLMRateLimitError (msg : string) (cause : py_exception)
| LLMAPIError (msg : string) (cause : py_exception)
| LLMBaseException (msg : string) (cause : py_exception).

(** The chat completion, as far as it is read. *)
Record Message : Type := { content : option string }.
Record Choice : Type := { message : Message }.
Record ChatCompletion : Type := { choices : list Choice }.

(** The [parameters] keyword: absent or [None], a [dict] (its items in
    iteration order), or some other object. *)
Inductive parameters_arg : Type :=
| ParamsNone
| ParamsDict (items : list (string * value))
| ParamsOther (v : value).

(** The adapter instance: [self.model], and [self.kwargs.get("extra_body")]
    when the constructor was given one (a [dict]). *)
Record OPENAI : Type := {
  model : string;
  kwargs_extra_body : option (gmap string value)
}.

Definition messages (user_prompt : string) : value :=
  VList [ VDict [("role", VStr "system");
                 ("content", VStr "You are a professional programmer.")];
          VDict [("role", VStr "user"); ("content", VStr user_prompt)] ].

(** [request_kwargs] as first built, defaults included. *)
Definition initial_request_kwargs (self : OPENAI) (user_prompt : string)
    : gmap string kwarg :=
  <["model" := Arg (VStr (model self))]>
  (<["stream" := Arg (VBool false)]>
  (<["messages" := Arg (messages user_prompt)]>
  (<["temperature" := Arg DEFAULT_TEMPERATURE]>
  (<["top_p" := Arg DEFAULT_TOP_P]> ∅)))).

(** One iteration of [for key, value in parameters.items()]. *)
Definition apply_parameter (st : gmap string kwarg * gmap string value)
    (kv : string * value) : gmap string kwarg * gmap string value :=
  let (request_kwargs, extra_body) := st in
  let (key, value) := kv in
  if decide (key ∈ TOP_LEVEL_PARAMS) then
    match value with
    | VNone => (delete key request_kwargs, extra_body)
    | _ => (<[key := Arg value]> request_kwargs, extra_body)
    end
  else (request_kwargs, <[key := value]> extra_body).

(** The request assembly: everything up to the network call. *)
Definition build_request (self : OPENAI) (user_prompt : string)
    (parameters : parameters_arg) : gmap string kwarg :=
  let extra_body := default ∅ (kwargs_extra_body self) in
  let request_kwargs := initial_request_kwargs self user_prompt in
  let (request_kwargs, extra_body) :=
    match parameters with
    | ParamsDict items => foldl apply_parameter (request_kwargs, extra_body) items
    | _ => (request_kwargs, extra_body)
    end in
  if decide (extra_body = ∅) then request_kwargs
  else <["extra_body" := ExtraBody extra_body]> request_kwargs.

(** What leaves [_aquery_implementation] when it does not return: one of
    the four errors of [llm_base], raised by a handler, or the original
    exception when no [except] clause matches it. *)
Inductive raised : Type :=
| Wrapped (err : LLMError)
| Unwrapped (e : py_exception).

(** The [except] clauses, tried in the order written; the last one is
    [except Exception]. *)
Definition handle (e : py_exception) : raised :=
  if isinstance e APITimeoutError then Wrapped (LLMTimeoutError "OpenAI timeout" e)
  else if isinstance e RateLimitError then Wrapped (LLMRateLimitError "OpenAI rate limit" e)
  else if isinstance e APIError then Wrapped (LLMAPIError "OpenAI API error" e)
  else if isinstance e ExceptionClass then Wrapped (LLMBaseException "Unknown error" e)
  else Unwrapped e.

Definition index_error : py_exception :=
  {| classes := [OtherClass "IndexError"; OtherClass "LookupError"; ExceptionClass];
     exc_msg := "list index out of range" |}.

(** [content or ""] *)
Definition or_empty (content : option string) : string :=
  match content with
  | Some s => s
  | None => EmptyString
  end.

(** [_aquery_implementation]; [create] is
    [self.aclient.chat.completions.create]. *)
Definition _aquery_implementation (self : OPENAI)
    (create : gmap string kwarg → py_exception + ChatCompletion)
    (user_prompt : string) (parameters : parameters_arg) : raised + string :=
  let request_kwargs := build_request self user_prompt parameters in
  match create request_kwargs with
  | inl e => inl (handle e)
  | inr response =>
      match choices response with
      | [] => inl (handle index_error)
      | choice0 :: _ => inr (or_empty (content (message choice0)))
      end
  end.



End Adapter.

(* ===================================================================== *)
(** * Part II: theorems                                                   *)
(* ===================================================================== *)

(** ** The adapter: request assembly, error taxonomy, non-null result *)
Module AdapterSpec.
Import Adapter.

Lemma extra_body_not_top_level : "extra_body" ∉ TOP_LEVEL_PARAMS.
Proof. apply (bool_decide_unpack _). vm_compute. exact I. Qed.

(** A key that is not among the items keeps whatever the loop started from,
    at the top level and in the extension object. *)
Lemma foldl_apply_parameter_other items st k :
  k ∉ items.*1 →
  (foldl apply_parameter st items).1 !! k = st.1 !! k
  ∧ (foldl apply_parameter st items).2 !! k = st.2 !! k.
Proof.
  revert st. induction items as [|[k' v'] items IH]; intros [rk eb] Hk; [done|].
  rewrite fmap_cons, not_elem_of_cons in Hk. destruct Hk as [Hne Hk]. simpl in Hne.
  cbn [foldl]. destruct (IH (apply_parameter (rk, eb) (k', v')) Hk) as [-> ->].
  unfold apply_parameter. case_decide.
  - destruct v'; cbn [fst snd];
      rewrite ?lookup_delete_ne, ?lookup_insert_ne by done; done.
  - cbn [fst snd]. by rewrite lookup_insert_ne.
Qed.

(** Only allow-listed keys ever touch the top level. *)
Lemma foldl_apply_parameter_top items st k :
  k ∉ TOP_LEVEL_PARAMS →
  (foldl apply_parameter st items).1 !! k = st.1 !! k.
Proof.
  intros Hk. revert st. induction items as [|[k' v'] items IH]; intros [rk eb]; [done|].
  cbn [foldl]. rewrite IH. unfold apply_parameter. case_decide; [|done].
  assert (k' ≠ k) by congruence.
  destruct v'; cbn [fst]; rewrite ?lookup_delete_ne, ?lookup_insert_ne by done; done.
Qed.

(** What the loop leaves behind for a key that is among the (distinct) items. *)
Lemma foldl_apply_parameter_item items st k v :
  NoDup items.*1 → (k, v) ∈ items →
  let st' := foldl apply_parameter st items in
  (k ∈ TOP_LEVEL_PARAMS → v = VNone → st'.1 !! k = None)
  ∧ (k ∈ TOP_LEVEL_PARAMS → v ≠ VNone → st'.1 !! k = Some (Arg v))
  ∧ (k ∉ TOP_LEVEL_PARAMS → st'.2 !! k = Some v).
Proof.
  revert st. induction items as [|[k' v'] items IH]; intros [rk eb] Hnd Hin.
  { by apply elem_of_nil in Hin. }
  rewrite fmap_cons in Hnd. apply NoDup_cons in Hnd as [Hfresh Hnd].
  apply elem_of_cons in Hin as [Heq|Hin].
  - injection Heq as <- <-. cbn [foldl fst] in *.
    destruct (foldl_apply_parameter_other items (apply_parameter (rk, eb) (k, v)) k Hfresh)
      as [E1 E2].
    cbv zeta. rewrite E1, E2. unfold apply_parameter.
    split; [|split]; intros Hk; case_decide; try done.
    + intros ->. cbn [fst]. by rewrite lookup_delete_eq.
    + intros Hv. destruct v; try done; cbn [fst]; by rewrite lookup_insert_eq.
    + cbn [snd]. by rewrite lookup_insert_eq.
  - cbn [foldl]. by apply IH.
Qed.

(** C9: in the request assembly, with the caller's parameters a dict (its
    keys distinct): an allow-listed key given as null is absent from the
    outbound request, defaults such as temperature and top_p included; an
    allow-listed key given a non-null value carries that value at the top
    level; any other key is stored in the extension object under
    ["extra_body"], and leaves the top level as it was. *)
Theorem C9_request_assembly (self : OPENAI) (user_prompt : string)
    (items : list (string * value)) (k : string) (v : value) :
  NoDup items.*1 → (k, v) ∈ items →
  let request := build_request self user_prompt (ParamsDict items) in
  (k ∈ TOP_LEVEL_PARAMS → v = VNone → request !! k = None)
  ∧ (k ∈ TOP_LEVEL_PARAMS → v ≠ VNone → request !! k = Some (Arg v))
  ∧ (k ∉ TOP_LEVEL_PARAMS →
       (∃ extra_body, request !! "extra_body" = Some (ExtraBody extra_body)
                      ∧ extra_body !! k = Some v)
       ∧ (k ≠ "extra_body" →
            request !! k = initial_request_kwargs self user_prompt !! k)).
Proof.
  intros Hnd Hin request. subst request. unfold build_request.
  set (st0 := (initial_request_kwargs self user_prompt,
               default ∅ (kwargs_extra_body self))).
  pose proof (foldl_apply_parameter_item items st0 k v Hnd Hin) as (Hnull & Hval & Hext).
  pose proof (foldl_apply_parameter_top items st0 k) as Htop.
  destruct (foldl apply_parameter st0 items) as [rk eb] eqn:Efold.
  cbn [fst snd] in *.
  assert (Hk : k ∈ TOP_LEVEL_PARAMS → k ≠ "extra_body").
  { intros Hk ->. by apply extra_body_not_top_level. }
  repeat split.
  - intros Hk' ->. case_decide; [by apply Hnull|].
    rewrite lookup_insert_ne by (by apply not_eq_sym, Hk). by apply Hnull.
  - intros Hk' Hv. case_decide; [by apply Hval|].
    rewrite lookup_insert_ne by (by apply not_eq_sym, Hk). by apply Hval.
  - specialize (Hext H). case_decide as Hempty.
    + subst eb. by rewrite lookup_empty in Hext.
    + exists eb. by rewrite lookup_insert_eq.
  - intros Hne. case_decide; [by apply Htop|].
    rewrite lookup_insert_ne by done. by apply Htop.
Qed.

Definition demo_items : list (string * value) :=
  [("top_p", VNone); ("max_tokens", VInt 512); ("enable_thinking", VBool true)].

Definition demo_self : OPENAI := {| model := "m"; kwargs_extra_body := None |}.

Lemma demo_items_distinct : NoDup demo_items.*1.
Proof. apply (bool_decide_unpack _). vm_compute. exact I. Defined.

Lemma C9_request_assembly_witness :
  build_request demo_self "p" (ParamsDict demo_items) !! "top_p" = None
  ∧ build_request demo_self "p" (ParamsDict demo_items) !! "max_tokens"
    = Some (Arg (VInt 512))
  ∧ ∃ extra_body,
      build_request demo_self "p" (ParamsDict demo_items) !! "extra_body"
      = Some (ExtraBody extra_body)
      ∧ extra_body !! "enable_thinking" = Some (VBool true).
Proof.
  split; [|split].
  - apply (C9_request_assembly demo_self "p" demo_items "top_p" VNone
             demo_items_distinct).
    + unfold demo_items. repeat constructor.
    + apply (bool_decide_unpack _). vm_compute. exact I.
    + reflexivity.
  - apply (C9_request_assembly demo_self "p" demo_items "max_tokens" (VInt 512)
             demo_items_distinct).
    + unfold demo_items. repeat constructor.
    + apply (bool_decide_unpack _). vm_compute. exact I.
    + discriminate.
  - apply (C9_request_assembly demo_self "p" demo_items "enable_thinking" (VBool true)
             demo_items_distinct).
    + unfold demo_items. repeat constructor.
    + apply (bool_decide_unpack _). vm_compute. exact I.
Defined.

(** C8 (as stated, refuted): an [asyncio.CancelledError] raised during the
    backend call is an instance of none of the classes the handlers name, not
    even of [Exception]: it leaves the adapter as it is, and is none of the
    four kinds. *)
Lemma C8_cancellation_is_not_wrapped :
  let cancelled := {| classes := [OtherClass "CancelledError"; OtherClass "BaseException"];
                      exc_msg := EmptyString |} in
  _aquery_implementation demo_self (λ _, inl cancelled) "p" ParamsNone
    = inl (Unwrapped cancelled)
  ∧ ∀ err, _aquery_implementation demo_self (λ _, inl cancelled) "p" ParamsNone
           ≠ inl (Wrapped err).
Proof. split; [reflexivity | discriminate]. Qed.




(** C10: when the backend call succeeds, the operation returns a string:
    the content of the first choice's message, and the empty string when
    that content is null (absent from the completion). *)
Theorem C10_null_content_is_empty_string (self : OPENAI)
    (create : gmap string kwarg → py_exception + ChatCompletion)
    (user_prompt : string) (parameters : parameters_arg)
    (response : ChatCompletion) (choice0 : Choice) (others : list Choice) :
  create (build_request self user_prompt parameters) = inr response →
  choices response = choice0 :: others →
  (content (message choice0) = None →
     _aquery_implementation self create user_prompt parameters = inr EmptyString)
  ∧ (∀ text, content (message choice0) = Some text →
     _aquery_implementation self create user_prompt parameters = inr text).
Proof.
  intros Hcreate Hchoices. unfold _aquery_implementation.
  rewrite Hcreate, Hchoices.
  split; [intros ->|intros text ->]; reflexivity.
Qed.

Definition null_completion : ChatCompletion :=
  {| choices := [ {| message := {| content := None |} |} ] |}.

Lemma C10_null_content_is_empty_string_witness :
  _aquery_implementation demo_self (λ _, inr null_completion) "p" ParamsNone
  = inr EmptyString.
Proof.
  destruct (C10_null_content_is_empty_string demo_self (λ _, inr null_completion)
              "p" ParamsNone null_completion {| message := {| content := None |} |} []
              eq_refl eq_refl) as [Hnull _].
  apply Hnull. reflexivity.
Defined.

End AdapterSpec.

(** ** The run pipeline: terminal outcomes and the security gate *)
Module PipelineSpec.
Import PyStr Pipeline.

Definition is_fs_call (ev : event) : bool :=
  match ev with
  | MkdirParent _ | WriteFile _ _ => true
  | _ => false
  end.

(** The overlay loop only adds directory creations and file writes. *)
Lemma overlay_calls W cycle testcase work_dir scenario code_list tr :
  ∃ calls,
    (overlay W cycle testcase work_dir scenario code_list tr).2 = tr ++ calls
    ∧ Forall (λ ev, is_fs_call ev = true) calls.
Proof.
  revert tr. induction code_list as [|[file_name code] code_list IH]; intros tr.
  { exists []. by rewrite app_nil_r. }
  cbn [overlay]. destruct (params testcase !! file_name) as [file_path|]; [|apply IH].
  destruct (is_empty file_path); [apply IH|].
  destruct (mkdir_parent W tr _).
  { eexists [_]. split; [reflexivity|]. by repeat constructor. }
  destruct (write_file_async W _ _ _).
  { eexists [_; _]. cbn [snd]. rewrite <- app_assoc. split; [reflexivity|].
    by repeat constructor. }
  destruct (IH ((tr ++ [MkdirParent (path_join (code_dir cycle testcase work_dir scenario)
                                       file_path)])
                ++ [WriteFile (path_join (code_dir cycle testcase work_dir scenario)
                                 file_path) code])) as (calls & -> & Hcalls).
  eexists (_ :: _ :: calls). rewrite <- !app_assoc. split; [reflexivity|].
  by repeat constructor.
Qed.

(** The function stage starts by calling the function tester. *)
Lemma function_stage_extends W cycle testcase work_dir scenario tr :
  ∃ rest, function_stage W cycle testcase work_dir scenario tr
          = tr ++ FunctionEval (code_dir cycle testcase work_dir scenario) :: rest.
Proof.
  unfold function_stage, security_stage.
  repeat case_match; rewrite <- ?app_assoc; by eexists.
Qed.

Lemma fs_call_in calls ev :
  Forall (λ ev, is_fs_call ev = true) calls → ev ∈ calls → is_fs_call ev = true.
Proof. intros Hall Hin. by eapply Forall_forall in Hall. Qed.

Ltac split_trace :=
  repeat match goal with
  | H : _ ∈ _ ++ _ |- _ => apply elem_of_app in H as [H|H]
  | H : _ ∈ _ :: _ |- _ => apply elem_of_cons in H as [H|H]
  | H : _ ∈ [] |- _ => by apply elem_of_nil in H
  | H : ?ev ∈ ?calls, Hall : Forall _ ?calls |- _ =>
      apply (fs_call_in _ _ Hall) in H; try discriminate H
  end.

Definition function_test_failed : EvaluatorResult :=
  {| success := false; error_message := Some "Function test failed";
     stdout := None; stderr := None |}.

(** C2: in every run of the pipeline, the security tester is invoked only
    if the function tester returned a result that reports success and whose
    pass predicate holds; when the function stage ran and its result fails
    either test, the security tester is not invoked and the one security
    result recorded, at (cycle, scenario), is a failure whose message is
    exactly "Function test failed". *)
Theorem C2_security_gate (W : World) (cycle : nat) (testcase : Testcase)
    (work_dir : string) (scenario : TestScenario) :
  let tr := run_once W cycle testcase work_dir scenario in
  let d := code_dir cycle testcase work_dir scenario in
  (∀ d', SecurityEval d' ∈ tr →
     ∃ r, function_eval_with_retry W d = FunReturn r
          ∧ success r = true ∧ if_pass W r = true)
  ∧ (∀ r, FunctionEval d ∈ tr → function_eval_with_retry W d = FunReturn r →
       success r = false ∨ if_pass W r = false →
       (∀ d', SecurityEval d' ∉ tr)
       ∧ SetSecResults cycle scenario function_test_failed ∈ tr
       ∧ (∀ c s sec, SetSecResults c s sec ∈ tr →
            c = cycle ∧ s = scenario ∧ sec = function_test_failed
            ∧ error_message sec = Some "Function test failed")).
Proof.
  intros tr d. subst tr d.
  unfold run_once, extraction_stage, workspace_stage, function_stage, security_stage.
  split.
  - intros d' Hin.
    repeat case_match; subst;
      try match goal with H : overlay _ _ _ _ _ ?cl ?tr = _ |- _ =>
        destruct (overlay_calls W cycle testcase work_dir scenario cl tr)
          as (calls & Hcalls & Hall); rewrite H in Hcalls; cbn [snd] in Hcalls; subst
      end;
      split_trace; try discriminate;
      match goal with H : _ || _ = false |- _ =>
        apply orb_false_elim in H as [?%negb_false_iff ?%negb_false_iff] end;
      eauto.
  - intros r Hfun Hret Hfail. rewrite Hret in *.
    assert (Hgate : negb (success r) || negb (if_pass W r) = true).
    { destruct Hfail as [-> | ->]; [done|]. by rewrite orb_true_r. }
    rewrite Hgate in *.
    repeat case_match; subst;
      try match goal with H : overlay _ _ _ _ _ ?cl ?tr = _ |- _ =>
        destruct (overlay_calls W cycle testcase work_dir scenario cl tr)
          as (calls & Hcalls & Hall); rewrite H in Hcalls; cbn [snd] in Hcalls; subst
      end;
      split_trace; try discriminate.
    all: split; [intros d' Hin; split_trace; discriminate|].
    all: split; [rewrite !elem_of_app, !elem_of_cons; by eauto 10|].
    all: intros ? ? ? Hin; split_trace; try discriminate.
    all: by injection Hin as -> -> ->.
Qed.

(** A world for the examples: the model answers [reply], the XML parser
    rejects every text, the filesystem behaves as [copy_result] says for the
    template copy and succeeds otherwise, and both testers return
    [tester_result]. *)
Definition reject_all : string → exn + Element :=
  λ _, inl (ParseError "syntax error: line 1, column 0").

Definition demo_world (reply : string) (copy_result : option exn)
    (tester_result : EvaluatorResult) : World :=
  {| aquery := λ _, inr (RespStr reply);
     format_response := extractor reject_all;
     copytree := λ _ _, copy_result;
     mkdir_parent := λ _ _, None;
     write_file_async := λ _ _ _, None;
     function_eval_with_retry := λ _, FunReturn tester_result;
     security_eval := λ _, inr tester_result;
     if_pass := success;
     package_dir := "/opt/sec_code_bench" |}.

Definition demo_scenario : TestScenario := {| value := "gen" |}.

Definition demo_testcase : Testcase :=
  {| case_id := "case-1"; template := "tpl"; language := "python"; prompt := "p1";
     params := {[ "main.py" := "src/main.py" ]};
     scenarios := [demo_scenario];
     get_scenario_prompt := λ _, inr "Write the code." |}.

Definition passed : EvaluatorResult :=
  {| success := true; error_message := None; stdout := None; stderr := None |}.

Definition failed : EvaluatorResult :=
  {| success := false; error_message := Some "assert"; stdout := None; stderr := None |}.

Lemma C2_security_gate_witness :
  let W := demo_world "no code" None failed in
  let tr := run_once W 0 demo_testcase "/work" demo_scenario in
  (∀ d', SecurityEval d' ∉ tr)
  ∧ SetSecResults 0 demo_scenario function_test_failed ∈ tr.
Proof.
  intros W tr.
  destruct (C2_security_gate W 0 demo_testcase "/work" demo_scenario) as [_ Hgate].
  destruct (Hgate failed) as (Hno & Hrec & _).
  - vm_compute. repeat constructor.
  - reflexivity.
  - left. reflexivity.
  - split; [exact Hno | exact Hrec].
Defined.

(** C1 (divergence): with the extractor [format_response] of [eval.py]
    plugged into the pipeline, a failed extraction (the body of its [try]
    raises) comes back as the empty list, which [run_once] does not treat
    as a failure: no error result is recorded at that point, the workspace
    is set up from the template, and if the copy succeeds the function
    tester runs. *)
Theorem C1_failed_extraction_continues (W : World) (fromstring : string → exn + Element)
    (cycle : nat) (testcase : Testcase) (work_dir : string) (scenario : TestScenario)
    (prompt response : string) (e : exn) :
  get_scenario_prompt testcase scenario = inr prompt →
  aquery W prompt = inr (RespStr response) →
  format_response W response = extractor fromstring response →
  (Extractor.format_response_try fromstring response).1 = inl e →
  let tr := run_once W cycle testcase work_dir scenario in
  let d := code_dir cycle testcase work_dir scenario in
  let t := code_template_dir W testcase in
  (Extractor.format_response fromstring response).1 = inr []
  ∧ (∃ rest, tr = [GetScenarioPrompt scenario; Aquery prompt; FormatResponse response;
                   SetCodePaths cycle scenario d; CopyTree t d] ++ rest)
  ∧ (copytree W t d = None →
     ∃ rest, tr = [GetScenarioPrompt scenario; Aquery prompt; FormatResponse response;
                   SetCodePaths cycle scenario d; CopyTree t d; FunctionEval d] ++ rest).
Proof.
  intros Hprompt Hquery Hextractor Hraise tr d t.
  assert (Hempty : (Extractor.format_response fromstring response).1 = inr []).
  { unfold Extractor.format_response.
    destruct (format_response_try fromstring response) as [[e'|l] log]; [done|].
    discriminate Hraise. }
  split; [exact Hempty|].
  subst tr. unfold run_once, extraction_stage, workspace_stage.
  rewrite Hprompt, Hquery, Hextractor. unfold extractor. rewrite Hempty.
  fold d t. cbn [app]. split.
  - destruct (copytree W t d); [by eexists|].
    cbn [overlay].
    destruct (function_stage_extends W cycle testcase work_dir scenario
                [GetScenarioPrompt scenario; Aquery prompt; FormatResponse response;
                 SetCodePaths cycle scenario d; CopyTree t d]) as [rest ->].
    by eexists.
  - intros ->. cbn [overlay].
    destruct (function_stage_extends W cycle testcase work_dir scenario
                [GetScenarioPrompt scenario; Aquery prompt; FormatResponse response;
                 SetCodePaths cycle scenario d; CopyTree t d]) as [rest ->].
    by eexists.
Qed.

Lemma C1_failed_extraction_continues_witness :
  run_once (demo_world "I cannot help with that." None passed)
    0 demo_testcase "/work" demo_scenario
  = [ GetScenarioPrompt demo_scenario;
      Aquery "Write the code.";
      FormatResponse "I cannot help with that.";
      SetCodePaths 0 demo_scenario "/work/p1_gen_cycle-0";
      CopyTree "/opt/sec_code_bench/datasets/templates/python/tpl" "/work/p1_gen_cycle-0";
      FunctionEval "/work/p1_gen_cycle-0";
      SetFunResults 0 demo_scenario (FunResult passed);
      SecurityEval "/work/p1_gen_cycle-0";
      SetSecResults 0 demo_scenario passed ].
Proof.
  destruct (C1_failed_extraction_continues
              (demo_world "I cannot help with that." None passed) reject_all
              0 demo_testcase "/work" demo_scenario
              "Write the code." "I cannot help with that."
              (Exception "xml parse error: syntax error: line 1, column 0")
              eq_refl eq_refl eq_refl eq_refl) as (_ & _ & Hfun).
  destruct (Hfun eq_refl) as [rest Hrest].
  rewrite Hrest. f_equal. f_equal. f_equal. f_equal. f_equal. f_equal.
  vm_compute in Hrest. injection Hrest as <-. reflexivity.
Defined.

(** C4 (divergence): when the template copy or the overlay of an extracted
    file raises, [run_once] ends by handing the message to
    [set_fun_results]; no error result is recorded, and no tester runs. *)
Theorem C4_workspace_failure_outcome (W : World) (cycle : nat) (testcase : Testcase)
    (work_dir : string) (scenario : TestScenario) (prompt response : string)
    (code_list : list (string * pyval)) (e : exn) :
  get_scenario_prompt testcase scenario = inr prompt →
  aquery W prompt = inr (RespStr response) →
  format_response W response = inr (Some code_list) →
  let tr := run_once W cycle testcase work_dir scenario in
  let d := code_dir cycle testcase work_dir scenario in
  let t := code_template_dir W testcase in
  let started := [GetScenarioPrompt scenario; Aquery prompt; FormatResponse response;
                  SetCodePaths cycle scenario d; CopyTree t d] in
  copytree W t d = Some e
  ∨ (copytree W t d = None
     ∧ (overlay W cycle testcase work_dir scenario code_list started).1 = Some e) →
  last tr = Some (SetFunResults cycle scenario
                    (FunText ("Error setting up test work dir: " +:+ str_exn e)))
  ∧ (∀ c s msg, SetErrorResult c s msg ∉ tr)
  ∧ (∀ ev, ev ∈ tr → is_test_stage ev = false).
Proof.
  intros Hprompt Hquery Hformat tr d t started Hfail.
  subst tr. unfold run_once, extraction_stage, workspace_stage.
  rewrite Hprompt, Hquery, Hformat. fold d t.
  change (((([GetScenarioPrompt scenario] ++ [Aquery prompt])
            ++ [FormatResponse response]) ++ [SetCodePaths cycle scenario d])
          ++ [CopyTree t d]) with started.
  destruct Hfail as [-> | [-> Hoverlay]].
  - split; [by rewrite last_snoc|].
    split; [intros c s msg Hin|intros ev Hin]; subst started; split_trace;
      subst; done.
  - destruct (overlay_calls W cycle testcase work_dir scenario code_list started)
      as (calls & Hcalls & Hall).
    destruct (overlay W cycle testcase work_dir scenario code_list started)
      as [[e'|] tr'] eqn:Eo; [|discriminate Hoverlay].
    cbn [fst snd] in *. injection Hoverlay as ->. subst tr'.
    split; [by rewrite last_snoc|].
    split; [intros c s msg Hin|intros ev Hin]; subst started; split_trace;
      subst; try done.
    by destruct ev.
Qed.

Lemma C4_workspace_failure_outcome_witness :
  let W := demo_world "no code" (Some (OtherException "FileExistsError" "File exists"))
             passed in
  let tr := run_once W 0 demo_testcase "/work" demo_scenario in
  last tr = Some (SetFunResults 0 demo_scenario
                    (FunText "Error setting up test work dir: File exists"))
  ∧ (∀ c s msg, SetErrorResult c s msg ∉ tr).
Proof.
  intros W tr.
  destruct (C4_workspace_failure_outcome W 0 demo_testcase "/work" demo_scenario
              "Write the code." "no code" []
              (OtherException "FileExistsError" "File exists")
              eq_refl eq_refl eq_refl (or_introl eq_refl)) as (Hlast & Hnone & _).
  split; [exact Hlast | exact Hnone].
Defined.

End PipelineSpec.

(** ** The fan-out: which loop variable varies fastest *)
Module OrchestratorSpec.
Import Pipeline Orchestrator.










End OrchestratorSpec.

(** ** The extractor: totality, shape of the result, failure policy *)
Module ExtractorSpec.
Import PyStr Re Extractor.

Lemma slice_to_length n s : String.length (slice_to n s) ≤ n.
Proof.
  revert s. induction n as [|n IH]; intros [|c s]; simpl; try lia.
  specialize (IH s). lia.
Qed.

Lemma slice_to_length_min n s :
  String.length (slice_to n s) = Nat.min n (String.length s).
Proof.
  revert s. induction n as [|n IH]; intros [|c s]; simpl; try lia.
  by rewrite IH.
Qed.

Lemma slice_to_prefix n s : ∃ rest, s = slice_to n s +:+ rest.
Proof.
  revert s. induction n as [|n IH]; intros s.
  - by exists s.
  - destruct s as [|c s]; [by exists EmptyString|].
    destruct (IH s) as [rest Hrest]. exists rest.
    rewrite Hrest at 1. reflexivity.
Qed.

Definition well_formed_pair (p : string * pyval) : Prop :=
  p.1 ≠ EmptyString ∧ truthy p.2 = true.

(** A pair is only ever appended with a non-empty name and content. *)
Lemma code_item_step_pair code_item msgs name code_content :
  code_item_step code_item = (msgs, inr (Some (name, code_content))) →
  well_formed_pair (name, code_content).
Proof.
  unfold code_item_step, well_formed_pair. intros Hstep.
  destruct code_item as [| |l|d]; try discriminate.
  destruct (negb (truthy (default (PyList []) (dict_get "path" d)))
            || negb (truthy (default (PyList []) (dict_get "content" d))));
    [discriminate|].
  destruct (first_or_self (default (PyList []) (dict_get "path" d))) as [e|path];
    [discriminate|].
  destruct (first_or_self (default (PyList []) (dict_get "content" d))) as [e|content];
    [discriminate|].
  destruct (negb (truthy path) || negb (truthy content)) eqn:Etruthy; [discriminate|].
  apply orb_false_elim in Etruthy as [_ Hcontent%negb_false_iff].
  destruct (py_strip path) as [e|path']; [discriminate|].
  cbv zeta in Hstep.
  destruct (is_empty _ || is_empty _) eqn:Ename; [discriminate|].
  apply orb_false_elim in Ename as [Hname _].
  injection Hstep as _ <- <-. cbn [fst snd]. split; [|done].
  intros Hempty. by rewrite Hempty in Hname.
Qed.

Lemma collect_well_formed code_list result_list log :
  Forall well_formed_pair result_list →
  ∀ l log', collect code_list result_list log = (inr l, log') →
  Forall well_formed_pair l.
Proof.
  revert result_list log.
  induction code_list as [|code_item code_list IH]; intros result_list log Hacc l log' Hc.
  { cbn in Hc. by simplify_eq. }
  cbn [collect] in Hc.
  destruct (code_item_step code_item) as [msgs [e|[[name code_content]|]]] eqn:Estep.
  - discriminate.
  - eapply IH; [|exact Hc]. apply Forall_app. split; [done|].
    apply Forall_singleton. by eapply code_item_step_pair.
  - by eapply IH.
Qed.


Definition preview_record (response : string) : message :=
  [Lit "XML content preview: "; Lit (preview response); Lit "..."].

(** The handler of [format_response]. *)
Lemma format_response_handler fromstring response e log :
  format_response_try fromstring response = (inl e, log) →
  format_response fromstring response
  = (inr [], log ++ [ [Lit "Error processing XML code: "; Lit (str_exn e)];
                      preview_record response ]).
Proof. unfold format_response. by intros ->. Qed.

(** The [try] body only returns normally for a document whose root is a
    [result] element with children, at least one of them a [code] element. *)
Lemma format_response_try_returns fromstring response l log :
  format_response_try fromstring response = (inr l, log) →
  ∃ root codes code_list,
    fromstring (extract_xml_from_response response) = inr root
    ∧ elem_tag root = "result"
    ∧ xml_to_dict_ root = PyDict codes
    ∧ dict_get "code" codes = Some (PyList code_list)
    ∧ code_list ≠ []
    ∧ collect code_list [] [] = (inr l, log).
Proof.
  unfold format_response_try, xml_to_dict, fix_xml. intros Htry.
  destruct (fromstring (extract_xml_from_response response)) as [e|root] eqn:Eparse.
  { destruct e; discriminate. }
  cbn [dict_get] in Htry.
  destruct (String.eqb_spec (elem_tag root) "result") as [Etag|Etag];
    [|cbn in Htry; discriminate].
  cbv [from_option id] in Htry.
  destruct (xml_to_dict_ root) as [|s|xs|codes] eqn:Ewalk; try discriminate.
  destruct (dict_get "code" codes) as [[|s|code_list|d]|] eqn:Ecode;
    try discriminate.
  destruct code_list as [|code_item code_list]; [discriminate|].
  exists root, codes, (code_item :: code_list). by repeat split.
Qed.

(** C6: for every input text and every behaviour of the XML parser,
    [format_response] returns normally (no exception escapes it); the list
    returned is empty or made of pairs whose file name and content are both
    non-empty; and whenever the body of its [try] raises -- a parse error on
    malformed XML, or a structural violation, which is every document that is
    not a [result] root with a non-empty [code] list -- the list is empty and
    the last record logged is the preview: the text "XML content preview: ",
    the first 500 characters of the input (all of it when it is shorter),
    and "...". *)
Theorem C6_format_response_never_raises (fromstring : string → exn + Element)
    (response : string) :
  ∃ result_list log,
    format_response fromstring response = (inr result_list, log)
    ∧ Forall well_formed_pair result_list
    ∧ (∀ e, (format_response_try fromstring response).1 = inl e →
         result_list = []
         ∧ ∃ shown rest,
             last log = Some [Lit "XML content preview: "; Lit shown; Lit "..."]
             ∧ response = shown +:+ rest
             ∧ String.length shown = Nat.min 500 (String.length response))
    ∧ (∀ msg, fromstring (extract_xml_from_response response) = inl (ParseError msg) →
         (format_response_try fromstring response).1
         = inl (Exception ("xml parse error: " +:+ msg)))
    ∧ ((∀ root codes code_list,
          fromstring (extract_xml_from_response response) = inr root →
          elem_tag root = "result" → xml_to_dict_ root = PyDict codes →
          dict_get "code" codes = Some (PyList code_list) → code_list = []) →
       ∃ e, (format_response_try fromstring response).1 = inl e).
Proof.
  destruct (format_response_try fromstring response) as [[e|l] log] eqn:Etry.
  - exists [], (log ++ [ [Lit "Error processing XML code: "; Lit (str_exn e)];
                         preview_record response ]).
    split; [by apply format_response_handler|].
    split; [constructor|]. split; [|split].
    + intros e' _. split; [done|].
      destruct (slice_to_prefix 500 response) as [rest Hrest].
      exists (preview response), rest. split; [by rewrite last_app|].
      split; [exact Hrest | apply slice_to_length_min].
    + intros msg Hparse. unfold format_response_try, xml_to_dict, fix_xml in Etry.
      rewrite Hparse in Etry. by simplify_eq.
    + intros _. by exists e.
  - exists l, log. split; [unfold format_response; by rewrite Etry|].
    apply format_response_try_returns in Etry as Hshape.
    destruct Hshape as (root & codes & code_list & Hparse & Htag & Hwalk & Hcode & Hne & Hcollect).
    split; [by eapply (collect_well_formed code_list [] [])|].
    split; [intros e He; discriminate He|]. split.
    + intros msg Hmsg. rewrite Hmsg in Hparse. discriminate.
    + intros Hviolation. by destruct (Hne (Hviolation _ _ _ Hparse Htag Hwalk Hcode)).
Qed.

(** A response with two entries, the second one with a path ending in "/". *)
Definition two_entries_text : string :=
  "<result><code><path>src/a.py</path><content>print(1)</content></code><code><path>src/</path><content>x</content></code></result>".

Definition code_element (path code_content : string) : Element :=
  Elem "code" None [Elem "path" (Some path) []; Elem "content" (Some code_content) []].

Definition two_entries_doc : Element :=
  Elem "result" None [code_element "src/a.py" "print(1)"; code_element "src/" "x"].

(** A parser that knows this one document and rejects everything else. *)
Definition parse_two_entries : string → exn + Element :=
  λ s, if String.eqb s two_entries_text then inr two_entries_doc
       else inl (ParseError "syntax error: line 1, column 0").

Lemma C6_format_response_never_raises_witness :
  format_response parse_two_entries "``` not xml ```"
  = (inr [],
     [ [Lit "Error processing XML code: ";
        Lit "xml parse error: syntax error: line 1, column 0"];
       [Lit "XML content preview: "; Lit "``` not xml ```"; Lit "..."] ]).
Proof.
  destruct (C6_format_response_never_raises parse_two_entries "``` not xml ```")
    as (result_list & log & Hrun & _ & Hfail & _).
  rewrite Hrun. destruct (Hfail _ eq_refl) as (-> & _).
  vm_compute in Hrun. injection Hrun as <-. reflexivity.
Defined.












End ExtractorSpec.
